(** * Census trade API query tool: the notebook driver and its engine

    The repository's program is the notebook
    [code/Census_API_Program_NB.ipynb].  Its code cells are embedded below as
    functions over an explicit event trace: what is printed, which answers
    the prompts consume, and which calls into [trade_api_functions] (imported
    as [taf]) are made, with their arguments.

    The module [trade_api_functions] is not part of the sources.  The
    functions the notebook calls from it are the fields of the interface
    [Taf]; the parts of it that the engine's specification describes
    (period enumeration, retrieval outcome, cleaning) are given as separate
    definitions, each marked as modelled from the specification. *)

From Stdlib Require Import ZArith Lia.
From stdpp Require Import gmap strings list.

Local Open Scope Z_scope.

(** ** Part I: definitions *)

(** *** The interface of [trade_api_functions] used by the notebook *)

(** A year variable of the notebook holds either a Python [int] (after
    [int(...)], possibly [+ 1]) or whatever [taf.valid_year_input] returned,
    unconverted. *)
Inductive yearval (R : Type) : Type :=
| YInt (z : Z)
| YRaw (r : R).
Arguments YInt {R} z.
Arguments YRaw {R} r.

(** The arguments of [taf.make_call], in the order of the call in the
    retrieval cell. *)
Record call_args (R O : Type) : Type := CallArgs {
  base_url : string;
  parameters : gmap string string;
  start_year : yearval R;
  end_year : yearval R;
  call_imp_exp : O;
  code_list : O;
  cty_codes : O;
  dist_codes : O;
  port_codes : O;
  state : O
}.
Arguments CallArgs {R O}.
Arguments base_url {R O}.
Arguments parameters {R O}.
Arguments start_year {R O}.
Arguments end_year {R O}.
Arguments call_imp_exp {R O}.
Arguments code_list {R O}.
Arguments cty_codes {R O}.
Arguments dist_codes {R O}.
Arguments port_codes {R O}.
Arguments state {R O}.

(** [raw] is the type of the values [valid_year_input] returns and [py_int]
    is Python's [int(...)] on them ([None]: the conversion raises).  [pyobj]
    stands for the values the notebook only passes along (the selections and
    the filter codes), [table] for the data frame [make_call] returns;
    Python's [None] in place of a data frame is [None : option table].  The
    library functions are taken to return: an exception raised inside one of
    them is outside this model, only the conversions [int(...)] written in
    the notebook itself can raise. *)
Class Taf : Type := {
  raw : Type;
  py_int : raw → option Z;
  pyobj : Type;
  table : Type;
  determine_trade_type : pyobj → pyobj → string;
  determine_base_url : pyobj → pyobj → string;
  determine_base_params : string → gmap string string;
  make_call : call_args raw pyobj → option table;
  clean_data : option table → string → option table;
  save_directory : string
}.

(** *** Events of a notebook run *)

(** The texts of the time-frame cell. *)
Definition time_prompt : string := "What time period would you like to pull data for?".
Definition start_prompt : string :=
  "Enter the 4 digit year you would like to start from (e.g. 2010): ".
Definition end_prompt : string :=
  "Enter the 4 digit year you would like to end at (e.g. 2020): ".
Definition inverted_msg : string :=
  "The start year cannot be greater than the end year. Please enter the years again.".

Inductive event `{Taf} : Type :=
| EPrint (msg : string)
| EAskYear (prompt : string) (answer : raw)
| ECall (args : call_args raw pyobj)
| EClean (data : option table) (trade_type : string)
| ESave (data : option table) (trade_type : string) (save_dir : string)
        (commodity : pyobj) (cleaned : bool).

(** The calls of [make_call], of [clean_data] and of [save_data] in a trace,
    in order, with the arguments the claims are about. *)
Definition calls_made `{Taf} (tr : list event) : list (call_args raw pyobj) :=
  omap (λ e, match e with ECall args => Some args | _ => None end) tr.
Definition cleans_made `{Taf} (tr : list event) : list (option table) :=
  omap (λ e, match e with EClean data _ => Some data | _ => None end) tr.
Definition saves_made `{Taf} (tr : list event)
  : list (option table * string * string * pyobj * bool) :=
  omap (λ e, match e with
             | ESave data trade_type dir commodity cleaned =>
                 Some (data, trade_type, dir, commodity, cleaned)
             | _ => None
             end) tr.

(** How often the inverted-range message was printed, that is how often the
    years were asked again. *)
Definition reprompts `{Taf} (tr : list event) : nat :=
  length (omap (λ e, match e with
                     | EPrint m => if String.eqb m inverted_msg then Some m else None
                     | _ => None
                     end) tr).

(** Events of the prompt layer: printing and asking. *)
Definition is_prompt `{Taf} (e : event) : bool :=
  match e with EPrint _ | EAskYear _ _ => true | _ => false end.

(** *** Cell "Request and store trade type": the parameter mapping *)

(** Truth value of [key] in [if key:]; [get_key] yields [None] or a text. *)
Definition truthy (key : option string) : bool :=
  match key with
  | Some k => negb (String.eqb k "")
  | None => false
  end.

(** [parameters = taf.determine_base_params(trade_type)] followed by
    [if key: parameters['key'] = key]. *)
Definition merge_key (base : gmap string string) (key : option string)
  : gmap string string :=
  match key with
  | Some k => if truthy key then <["key" := k]> base else base
  | None => base
  end.

(** *** Cell "Determine time frame" *)

(** [int(v)] on a year variable. *)
Definition int_of `{Taf} (v : yearval raw) : option Z :=
  match v with
  | YInt z => Some z
  | YRaw r => py_int r
  end.

(** How the cell ends: with both variables set, waiting at a prompt because
    the supplied answers ran out, or with an exception from [int]. *)
Inductive years `{Taf} : Type :=
| Accepted (start_year end_year : yearval raw) (rest : list raw)
| Blocked
| Raised.

(** The [while int(start_year) > int(end_year)] loop, from its test on.
    [answers] are the values the next calls of [valid_year_input] return. *)
Fixpoint reprompt_loop `{Taf} (start_year end_year : yearval raw)
    (answers : list raw) {struct answers} : list event * years :=
  match int_of start_year with
  | None => ([], Raised)
  | Some s =>
    match int_of end_year with
    | None => ([], Raised)
    | Some e =>
      if bool_decide (s > e) then
        match answers with
        | rs :: re :: rest =>
            let '(tr, r) := reprompt_loop (YRaw rs) (YRaw re) rest in
            (EPrint inverted_msg :: EAskYear start_prompt rs
               :: EAskYear end_prompt re :: tr, r)
        | [rs] => ([EPrint inverted_msg; EAskYear start_prompt rs], Blocked)
        | [] => ([EPrint inverted_msg], Blocked)
        end
      else ([], Accepted start_year end_year answers)
    end
  end.

(** The whole cell: the two first assignments, then the loop. *)
Definition year_cell `{Taf} (answers : list raw) : list event * years :=
  match answers with
  | [] => ([EPrint time_prompt], Blocked)
  | rs :: answers' =>
    match py_int rs with
    | None => ([EPrint time_prompt; EAskYear start_prompt rs], Raised)
    | Some s =>
      match answers' with
      | [] => ([EPrint time_prompt; EAskYear start_prompt rs], Blocked)
      | re :: rest =>
        match py_int re with
        | None =>
            ([EPrint time_prompt; EAskYear start_prompt rs;
              EAskYear end_prompt re], Raised)
        | Some e =>
            let '(tr, r) := reprompt_loop (YInt s) (YInt (e + 1)) rest in
            (EPrint time_prompt :: EAskYear start_prompt rs
               :: EAskYear end_prompt re :: tr, r)
        end
      end
    end
  end.

(** *** Cell "Make the call" *)

Definition no_data_msg : string :=
  "No data was found for the specified parameters. Please review the error message above and try again.".
Definition retrieved_msg : string := "Data was successfully retrieved!".

(** The message chosen by [if data is None: ... else: ...]. *)
Definition data_check `{Taf} (data : option table) : event :=
  match data with
  | None => EPrint no_data_msg
  | Some _ => EPrint retrieved_msg
  end.

Definition call_cell `{Taf} (args : call_args raw pyobj)
  : list event * option table :=
  let data := make_call args in
  ([ECall args; data_check data], data).

(** *** Cell "Clean and save" *)

Definition as_is_msg : string := "Data will be saved as is.".

Definition clean_and_save `{Taf} (data : option table) (trade_type : string)
    (commodity : pyobj) (cleaned : bool) : list event :=
  let save_dir := save_directory in
  if cleaned then
    let cleaned_data := clean_data data trade_type in
    [EClean data trade_type;
     ESave cleaned_data trade_type save_dir commodity true]
  else
    [EPrint as_is_msg; ESave data trade_type save_dir commodity false].

(** *** The notebook, cell after cell *)

(** A run of all code cells in order: the welcome line, the selections and
    the parameter mapping (whose prompts are the library's and whose answers
    are in [answers]), the time frame, the call, cleaning and saving. *)

(** The text of [print("Welcome ...", "\n")] in the cell that requests the
    API key: the two arguments joined by a blank, as Python writes them
    before the line end. *)
Definition welcome_msg : string :=
  "Welcome to the US Census International Trade API program! This tool allows you to access and save international trade data."
  +:+ " " +:+ String (Ascii.ascii_of_nat 10) EmptyString.

(** What the prompt layer supplies during one run. *)
Record answers `{Taf} : Type := Answers {
  key : option string;
  imp_exp : pyobj;
  endpoint : pyobj;
  user_code_list : pyobj;
  user_cty_codes : pyobj;
  user_dist_codes : pyobj;
  user_port_codes : pyobj;
  user_state : pyobj;
  commodity : pyobj;
  year_answers : list raw;
  cleaned : bool
}.

Inductive status : Type := Finished | WaitingForInput | Exception.

Definition session_trade_type `{Taf} (a : answers) : string :=
  determine_trade_type (imp_exp a) (endpoint a).

Definition session_parameters `{Taf} (a : answers) : gmap string string :=
  merge_key (determine_base_params (session_trade_type a)) (key a).

Definition session_args `{Taf} (a : answers) (sy ey : yearval raw)
  : call_args raw pyobj :=
  CallArgs (determine_base_url (imp_exp a) (endpoint a))
           (session_parameters a) sy ey (imp_exp a)
           (user_code_list a) (user_cty_codes a) (user_dist_codes a)
           (user_port_codes a) (user_state a).

Definition run_notebook `{Taf} (a : answers) : list event * status :=
  match year_cell (year_answers a) with
  | (tr, Accepted sy ey _) =>
      let '(tr_call, data) := call_cell (session_args a sy ey) in
      (EPrint welcome_msg :: tr ++ tr_call
          ++ clean_and_save data (session_trade_type a) (commodity a) (cleaned a),
       Finished)
  | (tr, Blocked) => (EPrint welcome_msg :: tr, WaitingForInput)
  | (tr, Raised) => (EPrint welcome_msg :: tr, Exception)
  end.

(** *** A stand-in for [trade_api_functions], to run the notebook *)

(** The stand-in's [int] on the text a console prompt returns: the value of
    a run of ASCII digits.  Every other text is taken not to convert; Python's
    [int] also reads signs, blanks and underscores, which the year answers
    used below do not have. *)
Fixpoint digits_value (acc : Z) (s : string) : option Z :=
  match s with
  | EmptyString => Some acc
  | String a s' =>
      let n := Z.of_N (Ascii.N_of_ascii a) in
      if (48 <=? n) && (n <=? 57) then digits_value (10 * acc + (n - 48)) s'
      else None
  end.

Definition int_of_text (s : string) : option Z :=
  match s with
  | EmptyString => None
  | _ => digits_value 0 s
  end.

(** *** The engine's data model (specification, section 3) *)

(** Modelled from the spec: a value of a raw record as the missing library
    handles it: null, a text as returned by the API, or a number. *)
Inductive cellv : Type :=
| CNull
| CText (s : string)
| CNum (z : Z).

Global Instance cellv_eq_dec : EqDecision cellv.
Proof. solve_decision. Defined.

(** Modelled from the spec: a raw record maps column names to values; the
    columns come in the order of the shared schema. *)
Definition record : Type := list (string * cellv).

(** Modelled from the spec: a result table, the shared column schema and the
    ordered rows. *)
Record result_table : Type := ResultTableOf {
  schema : list string;
  records : list record
}.

(** *** Periods handed to the orchestrator *)

(** Modelled from the spec: the closed inclusive sequence of yearly periods
    of the Time Range Validator (section 4.4), the years from [startYear] to
    [endYear]. *)
Definition inclusive_periods (startYear endYear : Z) : list Z :=
  seqZ startYear (endYear - startYear + 1).

(** Modelled from the spec: the year loop of [make_call], which is missing
    from the sources.  The orchestrator issues one sub-query per yearly
    period, ascending (section 4.5); the notebook's first assignment hands it
    the entered end year plus one, that is the bound of Python's
    [range(start_year, end_year)]: the years from [start_year] up to, not
    including, [end_year]. *)
Definition py_range (start stop : Z) : list Z := seqZ start (stop - start).

(** Modelled from the spec: the periods a call of the missing [make_call]
    covers, with the conversion the notebook's own loop test applies to both
    bounds ([None]: a bound does not convert). *)
Definition call_periods `{Taf} (args : call_args raw pyobj) : option (list Z) :=
  match int_of (start_year args), int_of (end_year args) with
  | Some s, Some e => Some (py_range s e)
  | _, _ => None
  end.

(** *** Retrieval outcome *)

(** Modelled from the spec: the classification of one sub-query's response
    (section 4.5, item 3); [make_call] is missing from the sources.  A
    well-formed payload carries its column schema and rows, an empty payload
    is a success with zero rows, and an HTTP error or malformed payload is a
    failure of that sub-query. *)
Inductive response : Type :=
| Payload (cols : list string) (rows : list record)
| EmptyPayload
| CallFailed.

(** Modelled from the spec: the typed outcomes of a retrieval by the missing
    [make_call] (sections 4.5 and 7): a table, the no-data signal, or the
    fatal schema mismatch. *)
Inductive outcome : Type :=
| ResultTable (t : result_table)
| NoDataFound
| SchemaMismatch.

(** Modelled from the spec: the result of the missing [make_call], the
    outcome together with the summary of failed sub-queries (section 7; [Q] is
    the type of a sub-query's parameters). *)
Record retrieval (Q : Type) : Type := Retrieval {
  outcome_of : outcome;
  failures : list Q
}.
Arguments Retrieval {Q}.
Arguments outcome_of {Q}.
Arguments failures {Q}.

(** Modelled from the spec: the accumulation of the missing [make_call] over
    the sub-queries in the order they were issued (section 4.5, items 3 to
    5).  Rows are appended, an empty payload adds nothing, a failed sub-query
    is recorded and the siblings continue, a payload whose columns differ
    from those accepted before ends the retrieval with [SchemaMismatch]; at
    the end the outcome is the table if some sub-query succeeded with rows
    and the no-data signal otherwise. *)
Fixpoint accumulate {Q} (sch : option (list string)) (acc : list record)
    (fails : list Q) (calls : list (Q * response)) : retrieval Q :=
  match calls with
  | [] =>
      match sch with
      | Some cols => Retrieval (ResultTable (ResultTableOf cols acc)) fails
      | None => Retrieval NoDataFound fails
      end
  | (q, r) :: rest =>
      match r with
      | EmptyPayload => accumulate sch acc fails rest
      | CallFailed => accumulate sch acc (fails ++ [q]) rest
      | Payload cols [] => accumulate sch acc fails rest
      | Payload cols rows =>
          match sch with
          | None => accumulate (Some cols) (acc ++ rows) fails rest
          | Some cols0 =>
              if decide (cols = cols0)
              then accumulate sch (acc ++ rows) fails rest
              else Retrieval SchemaMismatch fails
          end
      end
  end.

(** Modelled from the spec: a whole retrieval by the missing [make_call],
    from nothing accumulated. *)
Definition retrieve {Q} (calls : list (Q * response)) : retrieval Q :=
  accumulate None [] [] calls.






(** *** Data Cleaner *)

(** Modelled from the spec: the rules of one trade type in the missing
    [clean_data]: its key measure columns and its numeric columns. *)
Record cleaning_rules : Type := CleaningRules {
  key_measures : list string;
  numeric_columns : list string
}.

(** Modelled from the spec: what section 4.6 leaves to the missing
    [clean_data]: the rules of each trade type, which texts are placeholders,
    and how a text is read as a number. *)
Record clean_cfg : Type := CleanCfg {
  rules_for : string → cleaning_rules;
  placeholder : string → bool;
  to_numeric : string → option Z
}.

(** Modelled from the spec: a null or placeholder value (section 4.6);
    [clean_data] is missing from the sources. *)
Definition missing (cfg : clean_cfg) (v : cellv) : bool :=
  match v with
  | CNull => true
  | CText s => placeholder cfg s
  | CNum _ => false
  end.

(** Modelled from the spec: a row is kept by the missing [clean_data] when
    none of its key measure columns holds a null or placeholder value. *)
Definition measured (cfg : clean_cfg) (keys : list string) (r : record) : bool :=
  forallb (λ cv, negb (bool_decide (cv.1 ∈ keys) && missing cfg cv.2)) r.

(** Modelled from the spec: coercion of one value to numeric type in the
    missing [clean_data]; a value that is not numeric becomes invalid
    ([None]). *)
Definition coerce_cell (cfg : clean_cfg) (v : cellv) : option cellv :=
  match v with
  | CNum z => Some (CNum z)
  | CText s => CNum <$> to_numeric cfg s
  | CNull => None
  end.

(** Modelled from the spec: coercion of the numeric columns of a row in the
    missing [clean_data]; the row is invalid when one of them is. *)
Fixpoint coerce_record (cfg : clean_cfg) (nums : list string) (r : record)
  : option record :=
  match r with
  | [] => Some []
  | (c, v) :: r' =>
      match (if bool_decide (c ∈ nums) then coerce_cell cfg v else Some v) with
      | None => None
      | Some v' =>
          match coerce_record cfg nums r' with
          | None => None
          | Some r'' => Some ((c, v') :: r'')
          end
      end
  end.

(** Modelled from the spec: the missing [clean_data] drops exact full-row
    duplicates; the first occurrence stays, so that the order of the rows is
    preserved. *)
Fixpoint drop_duplicates (l : list record) : list record :=
  match l with
  | [] => []
  | r :: l' => r :: filter (λ r', r' ≠ r) (drop_duplicates l')
  end.

(** Modelled from the spec: the first two steps of the missing
    [clean_data], over the rows of a table. *)
Definition with_measures (cfg : clean_cfg) (tradeType : string)
    (rs : list record) : list record :=
  filter (λ r, measured cfg (key_measures (rules_for cfg tradeType)) r = true) rs.

Definition coerced (cfg : clean_cfg) (tradeType : string)
    (rs : list record) : list record :=
  omap (coerce_record cfg (numeric_columns (rules_for cfg tradeType))) rs.

(** Modelled from the spec: the count of rows dropped as invalid, which the
    missing [clean_data] reports. *)
Definition invalid_count (cfg : clean_cfg) (tradeType : string)
    (t : result_table) : nat :=
  let kept := with_measures cfg tradeType (records t) in
  (length kept - length (coerced cfg tradeType kept))%nat.

(** Modelled from the spec: [clean(table, tradeType)] (section 4.6), for the
    missing [clean_data]: drop
    the rows with a null or placeholder key measure, coerce the numeric
    columns and drop the rows that have an invalid value, drop the
    duplicates. *)
Definition clean (cfg : clean_cfg) (t : result_table) (tradeType : string)
  : result_table :=
  ResultTableOf (schema t)
    (drop_duplicates
       (coerced cfg tradeType (with_measures cfg tradeType (records t)))).

(** *** A stand-in library instance *)

(** A library instance on which the notebook runs: the prompts return text,
    a trade type is named direction, underscore, endpoint, every trade type
    asks for one measure field, and [make_call] returns [fetched]. *)
Definition sample_cfg : clean_cfg :=
  CleanCfg (λ _, CleaningRules ["GEN_VAL_YR"] ["GEN_VAL_YR"])
           (λ s, String.eqb s "-") int_of_text.

Definition sample_taf (fetched : option result_table) : Taf := {|
  raw := string;
  py_int := int_of_text;
  pyobj := string;
  table := result_table;
  determine_trade_type := λ ie ep, ie +:+ "_" +:+ ep;
  determine_base_url := λ ie ep, ie +:+ "/" +:+ ep;
  determine_base_params := λ _, {[ "get" := "GEN_VAL_YR" ]};
  make_call := λ _, fetched;
  clean_data := λ data tt, (λ t, clean sample_cfg t tt) <$> data;
  save_directory := "saved_data"
|}.

Definition sample_answers (fetched : option result_table)
    (key : option string) (ys : list string) (cleaned : bool)
  : @answers (sample_taf fetched) :=
  @Answers (sample_taf fetched) key "imp" "port" "" "" "" "1303" "" "" ys cleaned.

(** *** Observations on the time-frame cell *)

(** The answers the year prompts handed out, in the order they were asked. *)
Definition asked `{Taf} (tr : list event) : list raw :=
  omap (λ e, match e with EAskYear _ r => Some r | _ => None end) tr.

(** The answers of several attempts in a row: start year, end year, start
    year, end year, ... *)
Fixpoint attempts {R : Type} (ps : list (R * R)) : list R :=
  match ps with
  | [] => []
  | (rs, re) :: ps' => rs :: re :: attempts ps'
  end.

(** A re-entered attempt the loop test rejects: both answers convert and the
    start year is greater than the end year. *)
Definition inverted `{Taf} (p : raw * raw) : Prop :=
  ∃ s e, py_int p.1 = Some s ∧ py_int p.2 = Some e ∧ s > e.

(** ** Part II: properties *)

(** *** The time-frame cell *)

Section YearCell.
Context `{T : Taf}.

Lemma reprompt_loop_accept (sy ey : yearval raw) (s e : Z) (rest : list raw) :
  int_of sy = Some s → int_of ey = Some e → s ≤ e →
  reprompt_loop sy ey rest = ([], Accepted sy ey rest).
Proof.
  intros Hs He Hle. destruct rest as [|x rest]; simpl; rewrite Hs, He;
    rewrite bool_decide_eq_false_2 by lia; reflexivity.
Qed.

Lemma reprompt_loop_reject (sy ey : yearval raw) (s e : Z) (rs re : raw)
    (rest : list raw) :
  int_of sy = Some s → int_of ey = Some e → s > e →
  reprompt_loop sy ey (rs :: re :: rest) =
    (EPrint inverted_msg :: EAskYear start_prompt rs :: EAskYear end_prompt re
       :: (reprompt_loop (YRaw rs) (YRaw re) rest).1,
     (reprompt_loop (YRaw rs) (YRaw re) rest).2).
Proof.
  intros Hs He Hgt. cbn [reprompt_loop]. rewrite Hs, He.
  rewrite bool_decide_eq_true_2 by lia.
  destruct (reprompt_loop (YRaw rs) (YRaw re) rest); reflexivity.
Qed.

(** When the test holds, the message is the first thing the loop does,
    whatever answers follow. *)
Lemma reprompt_loop_reject_head (sy ey : yearval raw) (s e : Z)
    (answers : list raw) :
  int_of sy = Some s → int_of ey = Some e → s > e →
  ∃ tr, (reprompt_loop sy ey answers).1 = EPrint inverted_msg :: tr.
Proof.
  intros Hs He Hgt. destruct answers as [|rs [|re rest]].
  - simpl. rewrite Hs, He, bool_decide_eq_true_2 by lia. eauto.
  - simpl. rewrite Hs, He, bool_decide_eq_true_2 by lia. eauto.
  - rewrite (reprompt_loop_reject _ _ s e) by assumption. simpl. eauto.
Qed.

Lemma year_cell_first (rs re : raw) (s e : Z) (rest : list raw) :
  py_int rs = Some s → py_int re = Some e →
  year_cell (rs :: re :: rest) =
    (EPrint time_prompt :: EAskYear start_prompt rs :: EAskYear end_prompt re
       :: (reprompt_loop (YInt s) (YInt (e + 1)) rest).1,
     (reprompt_loop (YInt s) (YInt (e + 1)) rest).2).
Proof.
  intros Hs He. unfold year_cell. rewrite Hs, He.
  destruct (reprompt_loop (YInt s) (YInt (e + 1)) rest); reflexivity.
Qed.

(** The loop only prints and asks. *)
Lemma reprompt_loop_prompts (answers : list raw) :
  ∀ sy ey, Forall (λ e, is_prompt e = true) (reprompt_loop sy ey answers).1.
Proof.
  assert (Hboth : (∀ sy ey, Forall (λ e, is_prompt e = true)
                              (reprompt_loop sy ey answers).1)
                  ∧ (∀ x sy ey, Forall (λ e, is_prompt e = true)
                              (reprompt_loop sy ey (x :: answers)).1)).
  { induction answers as [|a answers [IH1 IH2]].
    - split; intros; simpl; repeat case_match; simpl;
        repeat constructor.
    - split; [exact (IH2 a)|].
      intros x sy ey. cbn [reprompt_loop].
      destruct (int_of sy); [|constructor].
      destruct (int_of ey); [|constructor].
      case_bool_decide; [|constructor].
      specialize (IH1 (YRaw x) (YRaw a)).
      destruct (reprompt_loop (YRaw x) (YRaw a) answers).
      simpl in *. repeat constructor. exact IH1. }
  exact (proj1 Hboth).
Qed.

Lemma year_cell_prompts (answers : list raw) :
  Forall (λ e, is_prompt e = true) (year_cell answers).1.
Proof.
  destruct answers as [|rs [|re rest]]; simpl.
  - repeat constructor.
  - destruct (py_int rs); repeat constructor.
  - destruct (py_int rs); [|repeat constructor].
    destruct (py_int re); [|repeat constructor].
    pose proof (reprompt_loop_prompts rest (YInt z) (YInt (z0 + 1))) as Hl.
    destruct (reprompt_loop (YInt z) (YInt (z0 + 1)) rest).
    simpl in *. repeat constructor. exact Hl.
Qed.

Lemma prompts_no_calls (tr : list event) :
  Forall (λ e, is_prompt e = true) tr →
  calls_made tr = [] ∧ cleans_made tr = [] ∧ saves_made tr = [].
Proof.
  induction 1 as [|e tr He _ (IHc & IHl & IHs)]; [done|].
  destruct e; try discriminate He; simpl;
    unfold calls_made, cleans_made, saves_made in *; simpl; auto.
Qed.
End YearCell.

(** *** The notebook as a whole *)

Section Notebook.
Context `{T : Taf}.

Lemma run_notebook_accepted (a : answers) (tr : list event)
    (sy ey : yearval raw) (rest : list raw) :
  year_cell (year_answers a) = (tr, Accepted sy ey rest) →
  run_notebook a =
    (EPrint welcome_msg
       :: tr ++ [ECall (session_args a sy ey);
                 data_check (make_call (session_args a sy ey))]
            ++ clean_and_save (make_call (session_args a sy ey))
                 (session_trade_type a) (commodity a) (cleaned a),
     Finished).
Proof. intros Hy. unfold run_notebook. rewrite Hy. reflexivity. Qed.

Lemma run_notebook_finished (a : answers) (tr : list event) :
  run_notebook a = (tr, Finished) →
  ∃ tr0 sy ey rest, year_cell (year_answers a) = (tr0, Accepted sy ey rest).
Proof.
  unfold run_notebook.
  destruct (year_cell (year_answers a)) as [tr0 [sy ey rest| |]];
    intros Hrun; try discriminate Hrun; eauto.
Qed.

Lemma data_check_prompt (data : option table) :
  is_prompt (data_check data) = true.
Proof. destruct data; reflexivity. Qed.

Lemma clean_and_save_calls (data : option table) (tt : string)
    (c : pyobj) (cl : bool) :
  calls_made (clean_and_save data tt c cl) = [].
Proof. destruct cl; reflexivity. Qed.

(** Printing is none of the library calls, and the welcome line is not the
    inverted-range message. *)
Lemma made_print (m : string) (tr : list event) :
  calls_made (EPrint m :: tr) = calls_made tr
  ∧ cleans_made (EPrint m :: tr) = cleans_made tr
  ∧ saves_made (EPrint m :: tr) = saves_made tr.
Proof. done. Qed.

(** A run that gets past the time-frame cell calls [make_call] once, with
    the bounds that cell has set. *)
Lemma run_notebook_calls (a : answers) (tr : list event)
    (sy ey : yearval raw) (rest : list raw) :
  year_cell (year_answers a) = (tr, Accepted sy ey rest) →
  calls_made (run_notebook a).1 = [session_args a sy ey].
Proof.
  intros Hy. rewrite (run_notebook_accepted _ _ _ _ _ Hy). cbn [fst].
  rewrite (proj1 (made_print _ _)).
  pose proof (year_cell_prompts (year_answers a)) as Hp.
  rewrite Hy in Hp. simpl in Hp.
  destruct (prompts_no_calls _ Hp) as (Hc & _ & _).
  pose proof (clean_and_save_calls (make_call (session_args a sy ey))
                (session_trade_type a) (commodity a) (cleaned a)) as Hs.
  unfold calls_made in *. rewrite !omap_app, Hc, Hs.
  destruct (make_call (session_args a sy ey)); reflexivity.
Qed.

(** A run that stops in the time-frame cell calls nothing. *)
Lemma run_notebook_stuck (a : answers) :
  (run_notebook a).2 ≠ Finished →
  calls_made (run_notebook a).1 = [] ∧ saves_made (run_notebook a).1 = [].
Proof.
  unfold run_notebook.
  pose proof (year_cell_prompts (year_answers a)) as Hp.
  destruct (year_cell (year_answers a)) as [tr [sy ey rest| |]];
    cbn [fst snd] in *; intros Hst.
  - exfalso. apply Hst. by destruct (call_cell (session_args a sy ey)).
  - destruct (prompts_no_calls _ Hp) as (? & _ & ?). auto.
  - destruct (prompts_no_calls _ Hp) as (? & _ & ?). auto.
Qed.
End Notebook.

(** *** Periods *)

Lemma py_range_inclusive (s e : Z) : py_range s (e + 1) = inclusive_periods s e.
Proof. unfold py_range, inclusive_periods. f_equal. lia. Qed.

Lemma inclusive_periods_length (s e : Z) :
  s ≤ e → Z.of_nat (length (inclusive_periods s e)) = e - s + 1.
Proof. intros Hle. unfold inclusive_periods. rewrite length_seqZ. lia. Qed.

Lemma inclusive_periods_lookup (s e : Z) (i : nat) :
  Z.of_nat i < e - s + 1 → inclusive_periods s e !! i = Some (s + Z.of_nat i).
Proof. intros Hi. unfold inclusive_periods. apply lookup_seqZ_lt. lia. Qed.

Lemma inclusive_periods_ascending (s e : Z) (i j : nat) (x y : Z) :
  inclusive_periods s e !! i = Some x → inclusive_periods s e !! j = Some y →
  (i < j)%nat → x < y.
Proof.
  unfold inclusive_periods. intros Hx Hy Hij.
  apply lookup_seqZ in Hx as [-> _]. apply lookup_seqZ in Hy as [-> _]. lia.
Qed.

(** On the first-entry path the bounds handed to [make_call] cover the
    closed sequence of the entered years. *)
Lemma first_entry_periods `{T : Taf} (a : answers) (rs re : raw) (s e : Z)
    (rest : list raw) :
  year_answers a = rs :: re :: rest →
  py_int rs = Some s → py_int re = Some e → s ≤ e →
  ∃ args, calls_made (run_notebook a).1 = [args]
          ∧ call_periods args = Some (inclusive_periods s e).
Proof.
  intros Ha Hs He Hle.
  exists (session_args a (YInt s) (YInt (e + 1))). split.
  - eapply run_notebook_calls. rewrite Ha.
    rewrite (year_cell_first rs re s e) by assumption.
    rewrite (reprompt_loop_accept _ _ s (e + 1)) by (simpl; auto; lia).
    reflexivity.
  - unfold call_periods. simpl. by rewrite py_range_inclusive.
Qed.

(** Whatever rule [make_call] uses to enumerate the years between the
    integer values of its two bounds, it cannot give the closed sequence of
    the entered years both when it is handed the entered end year plus one
    and when it is handed the entered end year itself. *)
Lemma no_period_rule_fits_both_paths (periods_of : Z → Z → list Z) :
  ¬ ((∀ s e, s ≤ e → periods_of s (e + 1) = inclusive_periods s e)
     ∧ (∀ s e, s ≤ e → periods_of s e = inclusive_periods s e)).
Proof.
  intros [Hfirst Hagain].
  specialize (Hfirst 2010 2010 ltac:(lia)).
  specialize (Hagain 2010 2011 ltac:(lia)).
  change (2010 + 1) with 2011 in Hfirst.
  rewrite Hfirst in Hagain. vm_compute in Hagain. discriminate Hagain.
Qed.

(** *** Claims about the year range *)

Lemma reprompts_print `{T : Taf} (m : string) (tr : list event) :
  reprompts (EPrint m :: tr)
  = if String.eqb m inverted_msg then S (reprompts tr) else reprompts tr.
Proof. unfold reprompts. simpl. destruct (String.eqb m inverted_msg); reflexivity. Qed.

Lemma reprompts_ask `{T : Taf} (p : string) (r : raw) (tr : list event) :
  reprompts (EAskYear p r :: tr) = reprompts tr.
Proof. reflexivity. Qed.

(** After a rejected attempt the loop test compares the re-entered years as
    they are: the pair is accepted exactly when the start year is at most the
    end year. *)
Lemma reentered_guard_compares_plain `{T : Taf} (rs re : raw) (s e : Z)
    (rest : list raw) :
  py_int rs = Some s → py_int re = Some e →
  (reprompt_loop (YRaw rs) (YRaw re) rest = ([], Accepted (YRaw rs) (YRaw re) rest)
   ↔ s ≤ e).
Proof.
  intros Hs He. split.
  - intros Hacc. destruct (Z_gt_le_dec s e) as [Hgt|Hle]; [|exact Hle].
    destruct (reprompt_loop_reject_head (YRaw rs) (YRaw re) s e rest Hs He Hgt)
      as [tr Htr].
    rewrite Hacc in Htr. discriminate Htr.
  - intros Hle. by apply (reprompt_loop_accept _ _ s e).
Qed.



(** C10: the first-entry path and the re-prompt path differ.  For the same
    entered pair, accepted on both, the first path hands [make_call] the
    converted start year and the end year plus one, while after a rejected
    first attempt the re-entered answers are handed over as they were
    returned, not converted, and the end bound stands for the entered end
    year, not for that year plus one. *)
Theorem reprompt_path_drops_increment `{T : Taf} (a1 a2 : answers)
    (r0s r0e rs re : raw) (s0 e0 s e : Z) (rest : list raw) :
  year_answers a1 = rs :: re :: rest →
  year_answers a2 = r0s :: r0e :: rs :: re :: rest →
  py_int r0s = Some s0 → py_int r0e = Some e0 → s0 > e0 + 1 →
  py_int rs = Some s → py_int re = Some e → s ≤ e →
  calls_made (run_notebook a1).1 = [session_args a1 (YInt s) (YInt (e + 1))]
  ∧ calls_made (run_notebook a2).1 = [session_args a2 (YRaw rs) (YRaw re)]
  ∧ int_of (end_year (session_args a1 (YInt s) (YInt (e + 1)))) = Some (e + 1)
  ∧ int_of (end_year (session_args a2 (YRaw rs) (YRaw re))) = Some e
  ∧ reprompts (run_notebook a1).1 = 0%nat
  ∧ reprompts (run_notebook a2).1 = 1%nat.
Proof.
  intros Ha1 Ha2 Hs0 He0 Hgt Hs He Hle.
  assert (Hy1 : year_cell (year_answers a1)
                = ([EPrint time_prompt; EAskYear start_prompt rs;
                    EAskYear end_prompt re],
                   Accepted (YInt s) (YInt (e + 1)) rest)).
  { rewrite Ha1, (year_cell_first rs re s e) by assumption.
    rewrite (reprompt_loop_accept _ _ s (e + 1)) by (simpl; auto; lia).
    reflexivity. }
  assert (Hy2 : year_cell (year_answers a2)
                = ([EPrint time_prompt; EAskYear start_prompt r0s;
                    EAskYear end_prompt r0e; EPrint inverted_msg;
                    EAskYear start_prompt rs; EAskYear end_prompt re],
                   Accepted (YRaw rs) (YRaw re) rest)).
  { rewrite Ha2, (year_cell_first r0s r0e s0 e0) by assumption.
    rewrite (reprompt_loop_reject _ _ s0 (e0 + 1)) by (simpl; auto).
    rewrite (reprompt_loop_accept _ _ s e) by (simpl; auto).
    reflexivity. }
  split; [eapply run_notebook_calls; exact Hy1|].
  split; [eapply run_notebook_calls; exact Hy2|].
  split; [reflexivity|]. split; [exact He|].
  rewrite (run_notebook_accepted _ _ _ _ _ Hy1).
  rewrite (run_notebook_accepted _ _ _ _ _ Hy2). cbn [fst].
  split.
  - destruct (make_call (session_args a1 (YInt s) (YInt (e + 1))));
      destruct (cleaned a1); reflexivity.
  - destruct (make_call (session_args a2 (YRaw rs) (YRaw re)));
      destruct (cleaned a2); reflexivity.
Qed.

Lemma reprompt_path_drops_increment_witness :
  let a1 := sample_answers None None ["2010"; "2011"] false in
  let a2 := sample_answers None None ["2020"; "2010"; "2010"; "2011"] false in
  calls_made (run_notebook a1).1 = [session_args a1 (YInt 2010) (YInt (2011 + 1))]
  ∧ calls_made (run_notebook a2).1
    = [session_args a2 (YRaw ("2010" : @raw (sample_taf None)))
                       (YRaw ("2011" : @raw (sample_taf None)))]
  ∧ int_of (end_year (session_args a1 (YInt 2010) (YInt (2011 + 1)))) = Some (2011 + 1)
  ∧ int_of (end_year (session_args a2 (YRaw ("2010" : @raw (sample_taf None)))
                                      (YRaw ("2011" : @raw (sample_taf None)))))
    = Some 2011
  ∧ reprompts (run_notebook a1).1 = 0%nat
  ∧ reprompts (run_notebook a2).1 = 1%nat.
Proof.
  refine (@reprompt_path_drops_increment (sample_taf None)
            (sample_answers None None ["2010"; "2011"] false)
            (sample_answers None None ["2020"; "2010"; "2010"; "2011"] false)
            "2020" "2010" "2010" "2011" 2020 2010 2010 2011 []
            eq_refl eq_refl eq_refl eq_refl _ eq_refl eq_refl _); lia.
Defined.

(** A start year more than one past the end year is rejected: the message
    comes right after the two first answers, before anything else but the
    welcome line. *)
Lemma inverted_beyond_one_reprompts `{T : Taf} (a : answers) (rs re : raw)
    (s e : Z) (rest : list raw) :
  year_answers a = rs :: re :: rest →
  py_int rs = Some s → py_int re = Some e → s > e + 1 →
  ∃ tr, (run_notebook a).1
        = EPrint welcome_msg :: EPrint time_prompt :: EAskYear start_prompt rs
            :: EAskYear end_prompt re :: EPrint inverted_msg :: tr.
Proof.
  intros Ha Hs He Hgt.
  destruct (reprompt_loop_reject_head (YInt s) (YInt (e + 1)) s (e + 1) rest)
    as [tr Htr]; [reflexivity|reflexivity|exact Hgt|].
  pose proof (year_cell_first rs re s e rest Hs He) as Hy.
  unfold run_notebook. rewrite Ha, Hy, Htr.
  destruct (reprompt_loop (YInt s) (YInt (e + 1)) rest).2; simpl; eauto.
Qed.

(** On the re-prompt path the bounds handed to [make_call] are the answers
    themselves, and the years between them stop one short of the entered end
    year. *)
Lemma reprompt_path_periods `{T : Taf} (a : answers) (r0s r0e rs re : raw)
    (s0 e0 s e : Z) (rest : list raw) :
  year_answers a = r0s :: r0e :: rs :: re :: rest →
  py_int r0s = Some s0 → py_int r0e = Some e0 → s0 > e0 + 1 →
  py_int rs = Some s → py_int re = Some e → s ≤ e →
  ∃ args, calls_made (run_notebook a).1 = [args]
          ∧ call_periods args = Some (inclusive_periods s (e - 1)).
Proof.
  intros Ha Hs0 He0 Hgt Hs He Hle.
  exists (session_args a (YRaw rs) (YRaw re)). split.
  - eapply run_notebook_calls. rewrite Ha.
    rewrite (year_cell_first r0s r0e s0 e0) by assumption.
    rewrite (reprompt_loop_reject _ _ s0 (e0 + 1)) by (simpl; auto).
    rewrite (reprompt_loop_accept _ _ s e) by (simpl; auto).
    reflexivity.
  - unfold call_periods. simpl. rewrite Hs, He.
    rewrite <- py_range_inclusive. do 2 f_equal. lia.
Qed.

(** C1 asks that every entered pair with the start year after the end year
    is rejected with the inverted-range message before any API call.  The
    notebook does not do so at the entered pair 2011, 2010: the test compares
    2011 with the stored 2010 + 1, the message is not printed, nothing is
    asked again, and [make_call] is called with the bounds 2011 and 2011. *)
Theorem inverted_pair_2011_2010_is_accepted :
  let a := sample_answers None None ["2011"; "2010"] false in
  2011 > 2010
  ∧ (year_cell (year_answers a)).2 = Accepted (YInt 2011) (YInt 2011) []
  ∧ reprompts (run_notebook a).1 = 0%nat
  ∧ calls_made (run_notebook a).1 = [session_args a (YInt 2011) (YInt 2011)].
Proof. split; [lia|]. vm_compute. auto. Qed.

(** C2 asks that every accepted pair with start year at most the end year is
    retrieved over the closed sequence of its years.  After a rejected first
    attempt (2020, 2010) the notebook hands the re-entered pair 2010, 2011 to
    [make_call] as it was answered, without the increment of the first-entry
    path; the years between these bounds are 2010 alone, where the closed
    sequence is 2010, 2011. *)
Theorem reentered_pair_2010_2011_covers_2010_only :
  let a := sample_answers None None ["2020"; "2010"; "2010"; "2011"] false in
  ∃ args, calls_made (run_notebook a).1 = [args]
          ∧ int_of (start_year args) = Some 2010
          ∧ int_of (end_year args) = Some 2011
          ∧ call_periods args = Some [2010]
          ∧ inclusive_periods 2010 2011 = [2010; 2011].
Proof. eexists. vm_compute. auto 10. Qed.

(** *** Claims about the parameter mapping and the clean-and-save cell *)

Lemma merge_key_supplied (base : gmap string string) (k : string) :
  k ≠ "" → merge_key base (Some k) = <["key" := k]> base.
Proof.
  intros Hk. unfold merge_key, truthy.
  apply String.eqb_neq in Hk. rewrite Hk. reflexivity.
Qed.

Lemma merge_key_absent (base : gmap string string) (key : option string) :
  key = None ∨ key = Some "" → merge_key base key = base.
Proof. intros [-> | ->]; reflexivity. Qed.

(** Every call of a run carries the parameters set in the trade-type cell. *)
Lemma calls_use_session_parameters `{T : Taf} (a : answers)
    (args : call_args raw pyobj) :
  args ∈ calls_made (run_notebook a).1 → parameters args = session_parameters a.
Proof.
  intros Hin.
  destruct (year_cell (year_answers a)) as [tr y] eqn:Hy.
  destruct y as [sy ey rest| |].
  - rewrite (run_notebook_calls a tr sy ey rest Hy) in Hin.
    apply list_elem_of_singleton in Hin as ->. reflexivity.
  - destruct (run_notebook_stuck a) as [Hc _].
    { unfold run_notebook. rewrite Hy. discriminate. }
    rewrite Hc in Hin. inversion Hin.
  - destruct (run_notebook_stuck a) as [Hc _].
    { unfold run_notebook. rewrite Hy. discriminate. }
    rewrite Hc in Hin. inversion Hin.
Qed.

(** C6: when a non-empty API key is supplied, the parameter mapping of every
    call of [make_call] holds that key under the field [key] and agrees with
    the base parameters of the trade type on every other field; when no key
    is supplied (none, or the empty text) the mapping is the base parameters,
    with no entry added. *)
Theorem every_call_carries_the_key `{T : Taf} (a : answers)
    (args : call_args raw pyobj) :
  args ∈ calls_made (run_notebook a).1 →
  (∀ k, key a = Some k → k ≠ "" →
        parameters args !! "key" = Some k
        ∧ ∀ f, f ≠ "key" →
               parameters args !! f
               = determine_base_params (session_trade_type a) !! f)
  ∧ (key a = None ∨ key a = Some "" →
     parameters args = determine_base_params (session_trade_type a)).
Proof.
  intros Hin. rewrite (calls_use_session_parameters a args Hin).
  unfold session_parameters. split.
  - intros k Hk Hne. rewrite Hk, merge_key_supplied by exact Hne. split.
    + apply lookup_insert_eq.
    + intros f Hf. apply lookup_insert_ne. congruence.
  - intros Hno. apply merge_key_absent. exact Hno.
Qed.

Lemma every_call_carries_the_key_witness :
  let a := sample_answers None (Some "abc") ["2010"; "2011"] false in
  parameters (session_args a (YInt 2010) (YInt 2012)) !! "key" = Some "abc"
  ∧ parameters (session_args a (YInt 2010) (YInt 2012)) !! "get"
    = @determine_base_params (sample_taf None) (session_trade_type a) !! "get".
Proof.
  intros a.
  assert (Hin : session_args a (YInt 2010) (YInt 2012)
                ∈ calls_made (run_notebook a).1).
  { replace (calls_made (run_notebook a).1)
      with [session_args a (YInt 2010) (YInt 2012)]
      by (vm_compute; reflexivity).
    apply list_elem_of_here. }
  destruct (proj1 (every_call_carries_the_key a _ Hin) "abc" eq_refl
              ltac:(discriminate)) as [Hkey Hrest].
  split; [exact Hkey|]. apply Hrest. discriminate.
Defined.

(** C7: cleaning is optional.  In a run that reaches the clean-and-save cell
    there is exactly one call of [save_data].  When the user declines,
    [clean_data] is not called and the table saved is the very value
    [make_call] returned, marked raw; when the user accepts, [clean_data] is
    called exactly once, on that value, and its result is saved, marked
    cleaned. *)
Theorem one_export_per_session `{T : Taf} (a : answers) (tr : list event) :
  run_notebook a = (tr, Finished) →
  ∃ args, calls_made tr = [args]
    ∧ (cleaned a = false →
       cleans_made tr = []
       ∧ saves_made tr
         = [(make_call args, session_trade_type a, save_directory,
             commodity a, false)])
    ∧ (cleaned a = true →
       cleans_made tr = [make_call args]
       ∧ saves_made tr
         = [(clean_data (make_call args) (session_trade_type a),
             session_trade_type a, save_directory, commodity a, true)]).
Proof.
  intros Hrun.
  destruct (run_notebook_finished a tr Hrun) as (tr0 & sy & ey & rest & Hy).
  exists (session_args a sy ey).
  pose proof (run_notebook_calls a tr0 sy ey rest Hy) as Hcalls.
  rewrite Hrun in Hcalls. split; [exact Hcalls|].
  rewrite (run_notebook_accepted a tr0 sy ey rest Hy) in Hrun.
  apply (f_equal fst) in Hrun. cbn [fst] in Hrun. subst tr.
  pose proof (year_cell_prompts (year_answers a)) as Hp.
  rewrite Hy in Hp. cbn [fst] in Hp.
  destruct (prompts_no_calls _ Hp) as (_ & Hcl & Hsv).
  destruct (made_print welcome_msg
              (tr0 ++ [ECall (session_args a sy ey);
                       data_check (make_call (session_args a sy ey))]
                   ++ clean_and_save (make_call (session_args a sy ey))
                        (session_trade_type a) (commodity a) (cleaned a)))
    as (_ & -> & ->).
  unfold cleans_made, saves_made in *.
  rewrite !omap_app, Hcl, Hsv.
  split; intros ->; destruct (make_call (session_args a sy ey)); split; reflexivity.
Qed.

Lemma one_export_per_session_witness :
  let a := sample_answers None None ["2010"; "2011"] true in
  ∃ args, calls_made (run_notebook a).1 = [args]
    ∧ (cleaned a = false →
       cleans_made (run_notebook a).1 = []
       ∧ saves_made (run_notebook a).1
         = [(make_call args, session_trade_type a,
             @save_directory (sample_taf None), commodity a, false)])
    ∧ (cleaned a = true →
       cleans_made (run_notebook a).1 = [@make_call (sample_taf None) args]
       ∧ saves_made (run_notebook a).1
         = [(clean_data (make_call args) (session_trade_type a),
             session_trade_type a, @save_directory (sample_taf None),
             commodity a, true)]).
Proof.
  intros a. apply (one_export_per_session a (run_notebook a).1).
  vm_compute. reflexivity.
Defined.

(** *** The retrieval outcome *)

Section Retrieval.
Context {Q : Type}.
Implicit Types (calls : list (Q * response)) (fails : list Q).







End Retrieval.

(** Two years with rows and one failed year in between: the rows of both,
    in the order issued, and the failed year reported. *)
Example retrieve_partial :
  retrieve [(2010, Payload ["YEAR"] [[("YEAR", CText "2010")]]);
            (2011, CallFailed);
            (2012, Payload ["YEAR"] [[("YEAR", CText "2012")]])]
  = Retrieval
      (ResultTable (ResultTableOf ["YEAR"]
                      [[("YEAR", CText "2010")]; [("YEAR", CText "2012")]]))
      [2011].
Proof. reflexivity. Qed.

Example retrieve_mismatch :
  outcome_of (retrieve [(2010, Payload ["YEAR"] [[("YEAR", CText "2010")]]);
                        (2011, Payload ["TIME"] [[("TIME", CText "2011")]])])
  = SchemaMismatch.
Proof. reflexivity. Qed.










(** *** The Data Cleaner *)

Section Cleaner.
Variable cfg : clean_cfg.
Implicit Types (r : record) (rs : list record) (keys nums : list string).

Lemma coerce_cell_stable (v v' : cellv) :
  coerce_cell cfg v = Some v' →
  coerce_cell cfg v' = Some v' ∧ missing cfg v' = false.
Proof.
  destruct v as [|s|z]; simpl; [discriminate| |].
  - destruct (to_numeric cfg s); simpl; [|discriminate].
    intros [= <-]. done.
  - intros [= <-]. done.
Qed.

Lemma coerce_record_stable keys nums r r' :
  coerce_record cfg nums r = Some r' →
  measured cfg keys r = true →
  coerce_record cfg nums r' = Some r' ∧ measured cfg keys r' = true.
Proof.
  revert r'. induction r as [|[c v] r IH]; intros r' Hco Hme.
  - injection Hco as <-. done.
  - simpl in Hco, Hme. apply andb_prop in Hme as [Hv Hme].
    destruct (coerce_record cfg nums r) as [r0|] eqn:Hr;
      [|by repeat case_match].
    destruct (IH r0 eq_refl Hme) as [IH1 IH2].
    destruct (bool_decide (c ∈ nums)) eqn:Hnum.
    + destruct (coerce_cell cfg v) as [v'|] eqn:Hv'; [|discriminate].
      injection Hco as <-.
      destruct (coerce_cell_stable v v' Hv') as [Hst Hmi].
      simpl. rewrite Hnum, Hst, IH1, IH2, Hmi, andb_false_r. done.
    + injection Hco as <-. simpl in *.
      rewrite Hnum, IH1, IH2, Hv. done.
Qed.

(** Duplicates. *)
Lemma drop_duplicates_filter (P : record → Prop) `{!∀ r, Decision (P r)} rs :
  drop_duplicates (filter P rs) = filter P (drop_duplicates rs).
Proof.
  induction rs as [|r rs IH]; [reflexivity|].
  destruct (decide (P r)) as [HP|HP].
  - rewrite filter_cons_True by exact HP. simpl.
    rewrite filter_cons_True by exact HP. rewrite IH. f_equal.
    rewrite !list_filter_filter. apply list_filter_iff. tauto.
  - rewrite filter_cons_False by exact HP. simpl.
    rewrite filter_cons_False by exact HP. rewrite IH.
    symmetry. apply list_filter_filter_l. intros x Hx ->. done.
Qed.

Lemma drop_duplicates_idempotent rs :
  drop_duplicates (drop_duplicates rs) = drop_duplicates rs.
Proof.
  induction rs as [|r rs IH]; [reflexivity|].
  simpl. f_equal. rewrite drop_duplicates_filter, IH.
  apply list_filter_filter_l. done.
Qed.

Lemma drop_duplicates_elem r rs : r ∈ drop_duplicates rs → r ∈ rs.
Proof.
  induction rs as [|r0 rs IH]; [done|]. simpl.
  intros [->|Hin]%elem_of_cons; [left|right].
  apply IH. by apply list_elem_of_filter in Hin as [_ ?].
Qed.

Lemma filter_all (P : record → Prop) `{!∀ r, Decision (P r)} rs :
  Forall P rs → filter P rs = rs.
Proof.
  induction 1 as [|r rs HP _ IH]; [reflexivity|].
  rewrite filter_cons_True by exact HP. by rewrite IH.
Qed.

Lemma omap_all (f : record → option record) rs :
  Forall (λ r, f r = Some r) rs → omap f rs = rs.
Proof.
  induction 1 as [|r rs Hf _ IH]; [reflexivity|].
  simpl. rewrite Hf. simpl. f_equal. exact IH.
Qed.

(** Every row the cleaner lets through has its key measures present and
    its numeric columns numeric. *)
Lemma cleaned_rows_are_clean tradeType rs r :
  r ∈ drop_duplicates (coerced cfg tradeType (with_measures cfg tradeType rs)) →
  measured cfg (key_measures (rules_for cfg tradeType)) r = true
  ∧ coerce_record cfg (numeric_columns (rules_for cfg tradeType)) r = Some r.
Proof.
  intros Hin%drop_duplicates_elem.
  apply list_elem_of_omap in Hin as (r0 & Hin & Hco).
  apply list_elem_of_filter in Hin as [Hme _].
  destruct (coerce_record_stable _ _ _ _ Hco Hme). done.
Qed.

Lemma clean_records_idempotent tradeType rs :
  let once := drop_duplicates
                (coerced cfg tradeType (with_measures cfg tradeType rs)) in
  drop_duplicates (coerced cfg tradeType (with_measures cfg tradeType once))
  = once.
Proof.
  intros once.
  assert (Hm : with_measures cfg tradeType once = once).
  { apply filter_all, Forall_forall. intros r Hr.
    by apply (cleaned_rows_are_clean tradeType rs). }
  assert (Hc : coerced cfg tradeType once = once).
  { apply omap_all, Forall_forall. intros r Hr.
    by apply (cleaned_rows_are_clean tradeType rs). }
  rewrite Hm, Hc. apply drop_duplicates_idempotent.
Qed.
End Cleaner.

(** A placeholder row, a row with a non-numeric measure and a row that
    becomes a duplicate once coerced are dropped. *)
Example clean_sample :
  clean sample_cfg
    (ResultTableOf ["GEN_VAL_YR"; "PORT"]
       [[("GEN_VAL_YR", CText "12"); ("PORT", CText "1303")];
        [("GEN_VAL_YR", CText "012"); ("PORT", CText "1303")];
        [("GEN_VAL_YR", CText "-"); ("PORT", CText "1303")];
        [("GEN_VAL_YR", CText "n/a"); ("PORT", CText "1303")]])
    "imp_port"
  = ResultTableOf ["GEN_VAL_YR"; "PORT"]
      [[("GEN_VAL_YR", CNum 12); ("PORT", CText "1303")]].
Proof. reflexivity. Qed.

(** C5: the Data Cleaner is idempotent: cleaning a cleaned table again, for
    the same trade type, gives the cleaned table back, for every table, every
    trade type and whatever the rules of the trade types are. *)
Theorem clean_idempotent (cfg : clean_cfg) (t : result_table)
    (tradeType : string) :
  clean cfg (clean cfg t tradeType) tradeType = clean cfg t tradeType.
Proof.
  unfold clean. simpl. f_equal. apply clean_records_idempotent.
Qed.

(** *** More on the time-frame cell and on whole runs *)

Lemma pair_ind {A : Type} (P : list A → Prop) :
  P [] → (∀ x, P [x]) → (∀ x y l, P l → P (x :: y :: l)) → ∀ l, P l.
Proof.
  intros Hnil Hone Hstep l.
  assert (Hboth : P l ∧ ∀ x, P (x :: l)).
  { induction l as [|y l [IH1 IH2]]; [by split|].
    split; [apply IH2|]. intros x. by apply Hstep. }
  exact (proj1 Hboth).
Qed.

Section Loop.
Context `{T : Taf}.

Lemma asked_print (m : string) (tr : list event) :
  asked (EPrint m :: tr) = asked tr.
Proof. reflexivity. Qed.

Lemma asked_ask (p : string) (r : raw) (tr : list event) :
  asked (EAskYear p r :: tr) = r :: asked tr.
Proof. reflexivity. Qed.

Lemma reprompts_inverted (tr : list event) :
  reprompts (EPrint inverted_msg :: tr) = S (reprompts tr).
Proof. rewrite reprompts_print. reflexivity. Qed.

Lemma reprompts_app (tr1 tr2 : list event) :
  reprompts (tr1 ++ tr2) = (reprompts tr1 + reprompts tr2)%nat.
Proof. unfold reprompts. by rewrite omap_app, length_app. Qed.

Lemma loop_raise_start (sy ey : yearval raw) (answers : list raw) :
  int_of sy = None → reprompt_loop sy ey answers = ([], Raised).
Proof. intros Hs. destruct answers; simpl; by rewrite Hs. Qed.

Lemma loop_raise_end (sy ey : yearval raw) (s : Z) (answers : list raw) :
  int_of sy = Some s → int_of ey = None →
  reprompt_loop sy ey answers = ([], Raised).
Proof. intros Hs He. destruct answers; simpl; by rewrite Hs, He. Qed.

Lemma loop_blocked_nil (sy ey : yearval raw) (s e : Z) :
  int_of sy = Some s → int_of ey = Some e → s > e →
  reprompt_loop sy ey [] = ([EPrint inverted_msg], Blocked).
Proof.
  intros Hs He Hgt. simpl. by rewrite Hs, He, bool_decide_eq_true_2 by lia.
Qed.

Lemma loop_blocked_one (sy ey : yearval raw) (s e : Z) (x : raw) :
  int_of sy = Some s → int_of ey = Some e → s > e →
  reprompt_loop sy ey [x]
  = ([EPrint inverted_msg; EAskYear start_prompt x], Blocked).
Proof.
  intros Hs He Hgt. simpl. by rewrite Hs, He, bool_decide_eq_true_2 by lia.
Qed.

(** What the loop guarantees, by the way it ends. *)
Lemma reprompt_loop_spec (answers : list raw) :
  ∀ sy ey tr r, reprompt_loop sy ey answers = (tr, r) →
  match r with
  | Accepted sy' ey' rest =>
      (∃ s e, int_of sy' = Some s ∧ int_of ey' = Some e ∧ s ≤ e)
      ∧ asked tr ++ rest = answers
      ∧ length (asked tr) = (2 * reprompts tr)%nat
      ∧ ((tr = [] ∧ sy' = sy ∧ ey' = ey)
         ∨ ((0 < reprompts tr)%nat
            ∧ ∃ pre rs re, asked tr = pre ++ [rs; re]
                           ∧ sy' = YRaw rs ∧ ey' = YRaw re))
  | Blocked => asked tr = answers ∧ (0 < reprompts tr)%nat
  | Raised =>
      (∃ rest, asked tr ++ rest = answers)
      ∧ length (asked tr) = (2 * reprompts tr)%nat
  end.
Proof.
  induction answers as [|x|x y l IH] using pair_ind; intros sy ey tr r Hrun.
  all: destruct (int_of sy) as [s|] eqn:Hs;
    [|rewrite loop_raise_start in Hrun by done; injection Hrun as <- <-;
      split; [by eexists|done]].
  all: destruct (int_of ey) as [e|] eqn:He;
    [|rewrite (loop_raise_end _ _ s) in Hrun by done; injection Hrun as <- <-;
      split; [by eexists|done]].
  all: destruct (Z_gt_le_dec s e) as [Hgt|Hle];
    [|rewrite (reprompt_loop_accept _ _ s e) in Hrun by done;
      injection Hrun as <- <-; split; [by exists s, e|];
      repeat split; auto].
  - rewrite (loop_blocked_nil _ _ s e) in Hrun by done.
    injection Hrun as <- <-. rewrite reprompts_inverted. split; [done|lia].
  - rewrite (loop_blocked_one _ _ s e) in Hrun by done.
    injection Hrun as <- <-. rewrite reprompts_inverted. split; [done|lia].
  - rewrite (reprompt_loop_reject _ _ s e) in Hrun by done.
    destruct (reprompt_loop (YRaw x) (YRaw y) l) as [tr' r'] eqn:Hrec.
    specialize (IH _ _ _ _ Hrec). injection Hrun as <- <-.
    rewrite reprompts_inverted, !reprompts_ask, asked_print, !asked_ask.
    destruct r' as [sy' ey' rest| |].
    + destruct IH as (Hord & Hcons & Hlen & Hshape).
      split; [exact Hord|]. split; [simpl; by rewrite Hcons|].
      split; [simpl; lia|]. right. split; [lia|].
      destruct Hshape as [(-> & -> & ->)|(_ & pre & rs & re & Hpre & -> & ->)].
      * by exists [], x, y.
      * exists (x :: y :: pre), rs, re. by rewrite Hpre.
    + destruct IH as [Hcons _]. split; [simpl; by rewrite Hcons|lia].
    + destruct IH as [[rest Hcons] Hlen]. split; [|simpl; lia].
      exists rest. simpl. by rewrite Hcons.
Qed.
End Loop.

Section Runs.
Context `{T : Taf}.

Lemma reprompts_time_prompt (tr : list event) :
  reprompts (EPrint time_prompt :: tr) = reprompts tr.
Proof. rewrite reprompts_print. reflexivity. Qed.

Lemma reprompts_welcome (tr : list event) :
  reprompts (EPrint welcome_msg :: tr) = reprompts tr.
Proof. rewrite reprompts_print. reflexivity. Qed.

(** What the time-frame cell guarantees, by the way it ends. *)
Lemma year_cell_spec (answers : list raw) (tr : list event) (r : years) :
  year_cell answers = (tr, r) →
  match r with
  | Accepted sy ey rest =>
      (∃ s e, int_of sy = Some s ∧ int_of ey = Some e ∧ s ≤ e)
      ∧ asked tr ++ rest = answers
      ∧ length (asked tr) = (2 + 2 * reprompts tr)%nat
      ∧ ((reprompts tr = 0%nat
          ∧ ∃ rs re s e, answers = rs :: re :: rest
                         ∧ py_int rs = Some s ∧ py_int re = Some e
                         ∧ sy = YInt s ∧ ey = YInt (e + 1))
         ∨ ((0 < reprompts tr)%nat
            ∧ ∃ pre rs re, asked tr = pre ++ [rs; re]
                           ∧ sy = YRaw rs ∧ ey = YRaw re))
  | Blocked => asked tr = answers
  | Raised => ∃ rest, asked tr ++ rest = answers
  end.
Proof.
  intros Hrun. destruct answers as [|rs [|re rest0]].
  - injection Hrun as <- <-. reflexivity.
  - simpl in Hrun. destruct (py_int rs); injection Hrun as <- <-;
      [reflexivity|by exists []].
  - destruct (py_int rs) as [s|] eqn:Hs.
    2: { simpl in Hrun. rewrite Hs in Hrun. injection Hrun as <- <-.
         by exists (re :: rest0). }
    destruct (py_int re) as [e|] eqn:He.
    2: { simpl in Hrun. rewrite Hs, He in Hrun. injection Hrun as <- <-.
         by exists rest0. }
    rewrite (year_cell_first rs re s e) in Hrun by done.
    destruct (reprompt_loop (YInt s) (YInt (e + 1)) rest0) as [tr' r'] eqn:Hloop.
    pose proof (reprompt_loop_spec rest0 _ _ _ _ Hloop) as Hspec.
    injection Hrun as <- <-.
    rewrite reprompts_time_prompt, !reprompts_ask, asked_print, !asked_ask.
    destruct r' as [sy ey rest| |].
    + destruct Hspec as (Hord & Hcons & Hlen & Hshape).
      split; [exact Hord|]. split; [simpl; by rewrite Hcons|].
      split; [simpl; lia|].
      destruct Hshape as [(-> & -> & ->)|(Hpos & pre & xs & xe & Hpre & -> & ->)].
      * left. split; [reflexivity|]. simpl in Hcons. subst rest0.
        by exists rs, re, s, e.
      * right. split; [exact Hpos|].
        exists (rs :: re :: pre), xs, xe. by rewrite Hpre.
    + destruct Hspec as [Hcons _]. simpl. by rewrite Hcons.
    + destruct Hspec as [[rest Hcons] _]. exists rest. simpl. by rewrite Hcons.
Qed.

(** After the time-frame cell nothing is asked and no inverted-range message
    is printed. *)
Lemma run_notebook_reprompts (a : answers) :
  reprompts (run_notebook a).1 = reprompts (year_cell (year_answers a)).1
  ∧ asked (run_notebook a).1 = asked (year_cell (year_answers a)).1.
Proof.
  unfold run_notebook.
  destruct (year_cell (year_answers a)) as [tr [sy ey rest| |]];
    cbn [call_cell fst]; rewrite reprompts_welcome, asked_print; [|done|done].
  rewrite !reprompts_app. unfold asked.
  rewrite !omap_app.
  destruct (make_call (session_args a sy ey)); destruct (cleaned a);
    cbn; rewrite ?app_nil_r; split; by try lia.
Qed.

(** The loop over attempts that are all inverted: it asks for each of them in
    turn and is still rejecting afterwards. *)
Lemma loop_over_inverted (bad : list (raw * raw)) :
  ∀ (sy ey : yearval raw) (s0 e0 : Z) (tail : list raw),
    int_of sy = Some s0 → int_of ey = Some e0 → s0 > e0 →
    Forall inverted bad →
    ∃ tr0 sy' ey' s' e',
      reprompts tr0 = length bad ∧ asked tr0 = attempts bad
      ∧ int_of sy' = Some s' ∧ int_of ey' = Some e' ∧ s' > e'
      ∧ reprompt_loop sy ey (attempts bad ++ tail)
        = (tr0 ++ (reprompt_loop sy' ey' tail).1,
           (reprompt_loop sy' ey' tail).2).
Proof.
  induction bad as [|[rs re] bad IH]; intros sy ey s0 e0 tail Hs He Hgt Hbad.
  - exists [], sy, ey, s0, e0. repeat split; try done.
    simpl. by destruct (reprompt_loop sy ey tail).
  - apply Forall_cons in Hbad as [(s & e & Hrs & Hre & Hinv) Hbad].
    simpl in Hrs, Hre.
    destruct (IH (YRaw rs) (YRaw re) s e tail Hrs Hre Hinv Hbad)
      as (tr0 & sy' & ey' & s' & e' & Hn & Hask & Hs' & He' & Hgt' & Hrun).
    exists (EPrint inverted_msg :: EAskYear start_prompt rs
              :: EAskYear end_prompt re :: tr0), sy', ey', s', e'.
    rewrite reprompts_inverted, !reprompts_ask, asked_print, !asked_ask.
    repeat split; try done.
    + simpl. by rewrite Hn.
    + simpl. by rewrite Hask.
    + cbn [attempts app]. change (rs :: re :: attempts bad ++ tail)
        with (rs :: re :: (attempts bad ++ tail)).
      rewrite (reprompt_loop_reject _ _ s0 e0) by done.
      by rewrite Hrun.
Qed.
End Runs.

(** *** Further properties of the notebook *)

(** X1: whenever [make_call] is called, both year bounds convert with [int]
    and the start bound is not greater than the end bound. *)
Theorem calls_have_ordered_bounds `{T : Taf} (a : answers)
    (args : call_args raw pyobj) :
  args ∈ calls_made (run_notebook a).1 →
  ∃ s e, int_of (start_year args) = Some s ∧ int_of (end_year args) = Some e
         ∧ s ≤ e.
Proof.
  intros Hin.
  destruct (year_cell (year_answers a)) as [tr y] eqn:Hy.
  pose proof (year_cell_spec _ _ _ Hy) as Hspec.
  destruct y as [sy ey rest| |].
  - rewrite (run_notebook_calls a tr sy ey rest Hy) in Hin.
    apply list_elem_of_singleton in Hin as ->. apply Hspec.
  - destruct (run_notebook_stuck a) as [Hc _].
    { unfold run_notebook. rewrite Hy. discriminate. }
    rewrite Hc in Hin. inversion Hin.
  - destruct (run_notebook_stuck a) as [Hc _].
    { unfold run_notebook. rewrite Hy. discriminate. }
    rewrite Hc in Hin. inversion Hin.
Qed.

Lemma calls_have_ordered_bounds_witness :
  let a := sample_answers None None ["2020"; "2010"; "2010"; "2011"] false in
  ∃ s e,
    int_of (start_year (session_args a (YRaw ("2010" : @raw (sample_taf None)))
                          (YRaw ("2011" : @raw (sample_taf None))))) = Some s
    ∧ int_of (end_year (session_args a (YRaw ("2010" : @raw (sample_taf None)))
                          (YRaw ("2011" : @raw (sample_taf None))))) = Some e
    ∧ s ≤ e.
Proof.
  intros a. apply (calls_have_ordered_bounds a).
  replace (calls_made (run_notebook a).1)
    with [session_args a (YRaw ("2010" : @raw (sample_taf None)))
            (YRaw ("2011" : @raw (sample_taf None)))]
    by (vm_compute; reflexivity).
  apply list_elem_of_here.
Defined.

(** X2: the two year bounds of a call are never of mixed kinds.  Either no
    inverted-range message was printed and the bounds are the converted first
    two answers, the end one incremented; or the message was printed and the
    bounds are the last two answers given, handed over unconverted. *)
Theorem call_bounds_converted_or_reentered `{T : Taf} (a : answers)
    (args : call_args raw pyobj) :
  args ∈ calls_made (run_notebook a).1 →
  (reprompts (run_notebook a).1 = 0%nat
   ∧ ∃ rs re s e rest, year_answers a = rs :: re :: rest
       ∧ py_int rs = Some s ∧ py_int re = Some e
       ∧ start_year args = YInt s ∧ end_year args = YInt (e + 1))
  ∨ ((0 < reprompts (run_notebook a).1)%nat
     ∧ ∃ pre rs re, asked (run_notebook a).1 = pre ++ [rs; re]
         ∧ start_year args = YRaw rs ∧ end_year args = YRaw re).
Proof.
  intros Hin. destruct (run_notebook_reprompts a) as [-> ->].
  destruct (year_cell (year_answers a)) as [tr y] eqn:Hy.
  pose proof (year_cell_spec _ _ _ Hy) as Hspec.
  destruct y as [sy ey rest| |].
  - rewrite (run_notebook_calls a tr sy ey rest Hy) in Hin.
    apply list_elem_of_singleton in Hin as ->. cbn [fst].
    destruct Hspec as (_ & _ & _ & [(H0 & rs & re & s & e & Ha & Hs & He & -> & ->)
                                   |(Hpos & pre & rs & re & Hpre & -> & ->)]).
    + left. split; [exact H0|]. by exists rs, re, s, e, rest.
    + right. split; [exact Hpos|]. by exists pre, rs, re.
  - destruct (run_notebook_stuck a) as [Hc _].
    { unfold run_notebook. rewrite Hy. discriminate. }
    rewrite Hc in Hin. inversion Hin.
  - destruct (run_notebook_stuck a) as [Hc _].
    { unfold run_notebook. rewrite Hy. discriminate. }
    rewrite Hc in Hin. inversion Hin.
Qed.

Lemma call_bounds_converted_or_reentered_witness :
  let a := sample_answers None None ["2010"; "2011"] false in
  (reprompts (run_notebook a).1 = 0%nat
   ∧ ∃ rs re s e rest, year_answers a = rs :: re :: rest
       ∧ py_int rs = Some s ∧ py_int re = Some e
       ∧ start_year (session_args a (YInt 2010) (YInt 2012)) = YInt s
       ∧ end_year (session_args a (YInt 2010) (YInt 2012)) = YInt (e + 1))
  ∨ ((0 < reprompts (run_notebook a).1)%nat
     ∧ ∃ pre rs re, asked (run_notebook a).1 = pre ++ [rs; re]
         ∧ start_year (session_args a (YInt 2010) (YInt 2012)) = YRaw rs
         ∧ end_year (session_args a (YInt 2010) (YInt 2012)) = YRaw re).
Proof.
  intros a. apply (call_bounds_converted_or_reentered a).
  replace (calls_made (run_notebook a).1)
    with [session_args a (YInt 2010) (YInt 2012)]
    by (vm_compute; reflexivity).
  apply list_elem_of_here.
Defined.

(** X3: the time-frame cell consumes the answers in the order given, none
    skipped and none used twice: what it asked is a prefix of the answers.
    When it ends with the years set it has asked exactly two answers plus two
    for every inverted-range message, and the answers left over are the ones
    not yet asked; when it waits at a prompt every answer has been asked. *)
Theorem answers_consumed_in_order `{T : Taf} (answers : list raw) :
  (∃ rest, asked (year_cell answers).1 ++ rest = answers)
  ∧ (∀ sy ey rest, (year_cell answers).2 = Accepted sy ey rest →
       asked (year_cell answers).1 ++ rest = answers
       ∧ length (asked (year_cell answers).1)
         = (2 + 2 * reprompts (year_cell answers).1)%nat)
  ∧ ((year_cell answers).2 = Blocked → asked (year_cell answers).1 = answers).
Proof.
  destruct (year_cell answers) as [tr y] eqn:Hy.
  pose proof (year_cell_spec _ _ _ Hy) as Hspec. cbn [fst snd].
  destruct y as [sy ey rest| |].
  - destruct Hspec as (_ & Hcons & Hlen & _).
    split; [by exists rest|]. split; [|discriminate].
    intros sy' ey' rest' [= <- <- <-]. done.
  - split; [exists []; by rewrite app_nil_r|]. split; [discriminate|done].
  - split; [exact Hspec|]. split; discriminate.
Qed.

Lemma answers_consumed_in_order_witness :
  asked (@year_cell (sample_taf None) ["2020"; "2010"; "2010"; "2011"; "1999"]).1
    ++ ["1999"]
  = ["2020"; "2010"; "2010"; "2011"; "1999"].
Proof.
  apply (proj1 (proj1 (proj2 (@answers_consumed_in_order (sample_taf None)
                                ["2020"; "2010"; "2010"; "2011"; "1999"]))
                  (YRaw "2010") (YRaw "2011") ["1999"] eq_refl)).
Defined.



(** X5: the loop never gives up and never falls back on a default.  When the
    first attempt and every re-entered attempt is inverted, the run is still
    waiting at the start-year prompt after one message per attempt and has
    called neither [make_call] nor [clean_data] nor [save_data]. *)
Theorem inverted_attempts_never_call `{T : Taf} (a : answers)
    (r0s r0e : raw) (s0 e0 : Z) (bad : list (raw * raw)) :
  year_answers a = r0s :: r0e :: attempts bad →
  py_int r0s = Some s0 → py_int r0e = Some e0 → s0 > e0 + 1 →
  Forall inverted bad →
  (run_notebook a).2 = WaitingForInput
  ∧ reprompts (run_notebook a).1 = S (length bad)
  ∧ asked (run_notebook a).1 = year_answers a
  ∧ calls_made (run_notebook a).1 = []
  ∧ cleans_made (run_notebook a).1 = []
  ∧ saves_made (run_notebook a).1 = [].
Proof.
  intros Ha Hs0 He0 Hgt Hbad.
  destruct (loop_over_inverted bad (YInt s0) (YInt (e0 + 1)) s0 (e0 + 1)
              [] eq_refl eq_refl Hgt Hbad)
    as (tr0 & sy' & ey' & s' & e' & Hn & Hask & Hs' & He' & Hgt' & Hrun).
  rewrite (loop_blocked_nil sy' ey' s' e') in Hrun by done.
  rewrite app_nil_r in Hrun. cbn [fst snd] in Hrun.
  assert (Hy : year_cell (year_answers a)
               = (EPrint time_prompt :: EAskYear start_prompt r0s
                    :: EAskYear end_prompt r0e :: tr0 ++ [EPrint inverted_msg],
                  Blocked)).
  { rewrite Ha, (year_cell_first r0s r0e s0 e0) by done. by rewrite Hrun. }
  pose proof (year_cell_prompts (year_answers a)) as Hp.
  assert (Hrn : run_notebook a
                = (EPrint welcome_msg :: (year_cell (year_answers a)).1,
                   WaitingForInput)).
  { unfold run_notebook. by rewrite Hy. }
  rewrite Hrn. cbn [fst snd].
  destruct (made_print welcome_msg (year_cell (year_answers a)).1)
    as (-> & -> & ->).
  rewrite reprompts_welcome, asked_print.
  destruct (prompts_no_calls _ Hp) as (Hc & Hcl & Hsv).
  split; [done|]. split; [|split; [|done]].
  - rewrite Hy. cbn [fst].
    rewrite reprompts_time_prompt, !reprompts_ask, reprompts_app, Hn.
    rewrite reprompts_inverted. unfold reprompts. simpl. lia.
  - rewrite Hy. cbn [fst]. rewrite asked_print, !asked_ask. unfold asked at 1.
    rewrite omap_app. fold (asked tr0). rewrite Hask, Ha. simpl.
    by rewrite app_nil_r.
Qed.

Lemma inverted_attempts_never_call_witness :
  let a := sample_answers None None ["2020"; "2010"; "2015"; "2012"] false in
  (run_notebook a).2 = WaitingForInput
  ∧ reprompts (run_notebook a).1 = 2%nat
  ∧ asked (run_notebook a).1 = year_answers a
  ∧ calls_made (run_notebook a).1 = []
  ∧ cleans_made (run_notebook a).1 = []
  ∧ saves_made (run_notebook a).1 = [].
Proof.
  intros a.
  refine (@inverted_attempts_never_call (sample_taf None) a
            "2020" "2010" 2020 2010 [("2015", "2012")]
            eq_refl eq_refl eq_refl _ _); [lia|].
  constructor; [exists 2015, 2012; repeat split; lia|]. constructor.
Defined.

(** When the loop ends with an exception, one of the two year variables it
    started from, or one of the answers it asked, does not convert. *)
Lemma loop_raised_cause `{T : Taf} (answers : list raw) :
  ∀ sy ey tr, reprompt_loop sy ey answers = (tr, Raised) →
    int_of sy = None ∨ int_of ey = None
    ∨ ∃ r, r ∈ asked tr ∧ py_int r = None.
Proof.
  induction answers as [|x|x y l IH] using pair_ind; intros sy ey tr Hrun.
  all: destruct (int_of sy) as [s|] eqn:Hs; [|by left].
  all: destruct (int_of ey) as [e|] eqn:He; [|by right; left].
  all: destruct (Z_gt_le_dec s e) as [Hgt|Hle];
    [|rewrite (reprompt_loop_accept _ _ s e) in Hrun by done; discriminate Hrun].
  - rewrite (loop_blocked_nil _ _ s e) in Hrun by done. discriminate Hrun.
  - rewrite (loop_blocked_one _ _ s e) in Hrun by done. discriminate Hrun.
  - rewrite (reprompt_loop_reject _ _ s e) in Hrun by done.
    destruct (reprompt_loop (YRaw x) (YRaw y) l) as [tr' r'] eqn:Hrec.
    injection Hrun as <- ->. right. right.
    rewrite asked_print, !asked_ask.
    destruct (IH _ _ _ Hrec) as [Hx|[Hy|(r & Hin & Hr)]].
    + exists x. split; [left|exact Hx].
    + exists y. split; [right; left|exact Hy].
    + exists r. split; [by do 2 right|exact Hr].
Qed.

(** X6: a run ends with an exception only because a year answer it asked
    does not convert with [int], and then it has called none of [make_call],
    [clean_data] and [save_data].  On first entry the start year is converted
    at once, so a start year that does not convert ends the run before the
    end year is asked.  A re-entered pair, after any number of rejected
    attempts, is only converted by the loop test, so both of its answers have
    been asked when the exception comes, one message per rejected attempt
    having been printed. *)
Theorem unconvertible_answer_raises `{T : Taf} (a : answers) :
  (∀ rs rest, year_answers a = rs :: rest → py_int rs = None →
     (run_notebook a).2 = Exception ∧ asked (run_notebook a).1 = [rs])
  ∧ (∀ rs re s rest, year_answers a = rs :: re :: rest →
       py_int rs = Some s → py_int re = None →
       (run_notebook a).2 = Exception ∧ asked (run_notebook a).1 = [rs; re])
  ∧ (∀ r0s r0e s0 e0 bad rs re rest,
       year_answers a = r0s :: r0e :: attempts bad ++ rs :: re :: rest →
       py_int r0s = Some s0 → py_int r0e = Some e0 → s0 > e0 + 1 →
       Forall inverted bad →
       py_int rs = None ∨ py_int re = None →
       (run_notebook a).2 = Exception
       ∧ asked (run_notebook a).1 = r0s :: r0e :: attempts bad ++ [rs; re]
       ∧ reprompts (run_notebook a).1 = S (length bad))
  ∧ ((run_notebook a).2 = Exception →
     calls_made (run_notebook a).1 = []
     ∧ cleans_made (run_notebook a).1 = []
     ∧ saves_made (run_notebook a).1 = []
     ∧ ∃ r, r ∈ asked (run_notebook a).1 ∧ py_int r = None).
Proof.
  destruct (run_notebook_reprompts a) as [Hrep Hasked].
  assert (Hst : ∀ tr, year_cell (year_answers a) = (tr, Raised) →
                      (run_notebook a).2 = Exception).
  { intros tr Hy. unfold run_notebook. by rewrite Hy. }
  split; [|split; [|split]].
  - intros rs rest Ha Hs.
    assert (Hy : year_cell (year_answers a)
                 = ([EPrint time_prompt; EAskYear start_prompt rs], Raised)).
    { rewrite Ha. unfold year_cell. by rewrite Hs. }
    split; [by apply (Hst _ Hy)|]. by rewrite Hasked, Hy.
  - intros rs re s rest Ha Hs He.
    assert (Hy : year_cell (year_answers a)
                 = ([EPrint time_prompt; EAskYear start_prompt rs;
                     EAskYear end_prompt re], Raised)).
    { rewrite Ha. unfold year_cell. by rewrite Hs, He. }
    split; [by apply (Hst _ Hy)|]. by rewrite Hasked, Hy.
  - intros r0s r0e s0 e0 bad rs re rest Ha Hs0 He0 Hgt Hbad Hnone.
    destruct (loop_over_inverted bad (YInt s0) (YInt (e0 + 1)) s0 (e0 + 1)
                (rs :: re :: rest) eq_refl eq_refl Hgt Hbad)
      as (tr0 & sy' & ey' & s' & e' & Hn & Hask & Hs' & He' & Hgt' & Hrun).
    rewrite (reprompt_loop_reject sy' ey' s' e') in Hrun by done.
    assert (Hloop : reprompt_loop (YRaw rs) (YRaw re) rest = ([], Raised)).
    { destruct (py_int rs) as [s|] eqn:Hs.
      - destruct Hnone as [?|He]; [done|].
        by apply (loop_raise_end _ _ s).
      - by apply loop_raise_start. }
    rewrite Hloop in Hrun. cbn [fst snd] in Hrun.
    assert (Hy : year_cell (year_answers a)
                 = (EPrint time_prompt :: EAskYear start_prompt r0s
                      :: EAskYear end_prompt r0e
                      :: tr0 ++ [EPrint inverted_msg; EAskYear start_prompt rs;
                                 EAskYear end_prompt re],
                    Raised)).
    { rewrite Ha, (year_cell_first r0s r0e s0 e0) by done. by rewrite Hrun. }
    split; [by apply (Hst _ Hy)|]. rewrite Hasked, Hrep, Hy. cbn [fst]. split.
    + rewrite asked_print, !asked_ask. unfold asked at 1.
      rewrite omap_app. fold (asked tr0). by rewrite Hask.
    + rewrite reprompts_time_prompt, !reprompts_ask, reprompts_app, Hn.
      rewrite reprompts_inverted. unfold reprompts. simpl. lia.
  - intros Hexc.
    destruct (run_notebook_stuck a) as [Hc Hsv]; [by rewrite Hexc|].
    split; [exact Hc|]. split; [|split; [exact Hsv|]].
    + revert Hexc. unfold run_notebook.
      pose proof (year_cell_prompts (year_answers a)) as Hp.
      destruct (year_cell (year_answers a)) as [tr [sy ey rest| |]];
        cbn [fst snd] in *; try discriminate.
      intros _. apply prompts_no_calls. by constructor.
    + rewrite Hasked. revert Hexc. unfold run_notebook.
      destruct (year_cell (year_answers a)) as [tr y] eqn:Hy.
      destruct y as [sy ey rest| |]; cbn [fst snd]; try discriminate.
      intros _. destruct (year_answers a) as [|rs [|re rest0]].
      * discriminate Hy.
      * simpl in Hy. destruct (py_int rs) eqn:Hs; [discriminate Hy|].
        injection Hy as <-. exists rs. split; [left|exact Hs].
      * destruct (py_int rs) as [s|] eqn:Hs.
        2: { simpl in Hy. rewrite Hs in Hy. injection Hy as <-.
             exists rs. split; [left|exact Hs]. }
        destruct (py_int re) as [e|] eqn:He.
        2: { simpl in Hy. rewrite Hs, He in Hy. injection Hy as <-.
             exists re. split; [right; left|exact He]. }
        rewrite (year_cell_first rs re s e) in Hy by done.
        destruct (reprompt_loop (YInt s) (YInt (e + 1)) rest0)
          as [tr' r'] eqn:Hloop.
        injection Hy as <- ->.
        destruct (loop_raised_cause _ _ _ _ Hloop)
          as [Hx|[Hx|(r & Hin & Hr)]]; [discriminate Hx|discriminate Hx|].
        exists r. split; [|exact Hr].
        rewrite asked_print, !asked_ask. by do 2 right.
Qed.

Lemma unconvertible_answer_raises_witness :
  let a := sample_answers None None
             ["2020"; "2010"; "2015"; "2012"; "2O10"; "2011"] false in
  (run_notebook a).2 = Exception
  ∧ asked (run_notebook a).1
    = ["2020"; "2010"; "2015"; "2012"; "2O10"; "2011"]
  ∧ reprompts (run_notebook a).1 = 2%nat.
Proof.
  intros a.
  refine (proj1 (proj2 (proj2 (@unconvertible_answer_raises (sample_taf None) a)))
            "2020" "2010" 2020 2010 [("2015", "2012")] "2O10" "2011" []
            eq_refl eq_refl eq_refl _ _ _); [lia| |by left].
  constructor; [exists 2015, 2012; repeat split; lia|]. constructor.
Defined.

(** X7: a run that does not get past the time-frame cell, because it waits
    for an answer or because a conversion raised, has called none of
    [make_call], [clean_data] and [save_data]. *)
Theorem unfinished_run_calls_nothing `{T : Taf} (a : answers) :
  (run_notebook a).2 ≠ Finished →
  calls_made (run_notebook a).1 = []
  ∧ cleans_made (run_notebook a).1 = []
  ∧ saves_made (run_notebook a).1 = [].
Proof.
  unfold run_notebook.
  pose proof (year_cell_prompts (year_answers a)) as Hp.
  destruct (year_cell (year_answers a)) as [tr [sy ey rest| |]];
    cbn [fst snd] in *; intros Hst.
  - destruct (call_cell (session_args a sy ey)). simpl in Hst. congruence.
  - apply prompts_no_calls. by constructor.
  - apply prompts_no_calls. by constructor.
Qed.

Lemma unfinished_run_calls_nothing_witness :
  let a := sample_answers None None ["2010"] false in
  calls_made (run_notebook a).1 = []
  ∧ cleans_made (run_notebook a).1 = []
  ∧ saves_made (run_notebook a).1 = [].
Proof.
  intros a. apply (unfinished_run_calls_nothing a). vm_compute. discriminate.
Defined.

(** X8: in a run that finishes, everything before the call of [make_call] is
    printing and asking, nothing after it asks for a year or calls
    [make_call] again, and the call of [save_data], with the session's trade
    type, save directory and commodity label, is the last thing the run
    does. *)
Theorem year_prompts_precede_the_call `{T : Taf} (a : answers)
    (tr : list event) :
  run_notebook a = (tr, Finished) →
  ∃ pre args post data,
    tr = pre ++ ECall args :: post
           ++ [ESave data (session_trade_type a) save_directory (commodity a)
                 (cleaned a)]
    ∧ Forall (λ e, is_prompt e = true) pre
    ∧ asked post = [] ∧ calls_made post = [] ∧ saves_made post = [].
Proof.
  intros Hrun.
  destruct (run_notebook_finished a tr Hrun) as (tr0 & sy & ey & rest & Hy).
  rewrite (run_notebook_accepted a tr0 sy ey rest Hy) in Hrun.
  apply (f_equal fst) in Hrun. cbn [fst] in Hrun. subst tr.
  pose proof (year_cell_prompts (year_answers a)) as Hp.
  rewrite Hy in Hp. cbn [fst] in Hp.
  exists (EPrint welcome_msg :: tr0), (session_args a sy ey).
  unfold clean_and_save.
  destruct (cleaned a).
  - exists [data_check (make_call (session_args a sy ey));
            EClean (make_call (session_args a sy ey)) (session_trade_type a)],
      (clean_data (make_call (session_args a sy ey)) (session_trade_type a)).
    split; [reflexivity|]. split; [by constructor|].
    by destruct (make_call (session_args a sy ey)).
  - exists [data_check (make_call (session_args a sy ey)); EPrint as_is_msg],
      (make_call (session_args a sy ey)).
    split; [reflexivity|]. split; [by constructor|].
    by destruct (make_call (session_args a sy ey)).
Qed.

Lemma year_prompts_precede_the_call_witness :
  let a := sample_answers None None ["2020"; "2010"; "2010"; "2011"] true in
  ∃ pre args post data,
    (run_notebook a).1
    = pre ++ ECall args :: post
        ++ [ESave data (session_trade_type a) (@save_directory (sample_taf None))
              (commodity a) (cleaned a)]
    ∧ Forall (λ e, is_prompt e = true) pre
    ∧ asked post = [] ∧ calls_made post = [] ∧ saves_made post = [].
Proof.
  intros a. apply (year_prompts_precede_the_call a (run_notebook a).1).
  vm_compute. reflexivity.
Defined.
